(** * run-all-benchmarks.py: the sequential benchmark-run orchestrator

    A shallow embedding of the script: the configuration matrix as a list of
    Python dicts, the script body as a program in a small state-and-exception
    monad over a log of the actions it performs, and the properties of the
    configuration matrix and of the command sequence. *)

From Stdlib Require Import ZArith List Ascii String DecimalString DecimalZ.
From stdpp Require Import base option list gmap strings.

Local Open Scope string_scope.
Local Open Scope list_scope.
Local Open Scope Z_scope.

(** * Definitions *)

(** ** Python values *)

Module Py.

(** The objects the script handles are ints and strs; [VBool] is the third
    scalar type the data model of the specification speaks of.  Everything
    said below of an arbitrary configuration is said of a dict whose values
    are of these three types: bytes, path-like objects and the other Python
    types are not modelled. *)
Inductive value : Type :=
| VInt (z : Z)
| VStr (s : string)
| VBool (b : bool).

(** [str(n)] for an int: the decimal numeral, with a leading minus sign
    for a negative one. *)
Definition str_of_int (z : Z) : string :=
  NilZero.string_of_int (Z.to_int z).

(** [str(v)], which is also what an f-string replacement field
    [{v}] produces for these types. *)
Definition str (v : value) : string :=
  match v with
  | VInt z => str_of_int z
  | VStr s => s
  | VBool true => "True"
  | VBool false => "False"
  end.

(** [s * n] on a str. *)
Fixpoint str_mul (s : string) (n : nat) : string :=
  match n with
  | O => ""
  | S n' => s +:+ str_mul s n'
  end.

(** [range(start, stop, step)] for a positive step; [fuel] bounds the
    number of elements produced. *)
Fixpoint range_fuel (fuel : nat) (start stop step : Z) : list Z :=
  match fuel with
  | O => []
  | S fuel' =>
      if start <? stop
      then start :: range_fuel fuel' (start + step) stop step
      else []
  end.

Definition range (start stop step : Z) : list Z :=
  range_fuel (Z.to_nat (stop - start)) start stop step.

(** [enumerate(xs, start)]. *)
Fixpoint enumerate {A : Type} (xs : list A) (start : Z) : list (Z * A) :=
  match xs with
  | [] => []
  | x :: xs' => (start, x) :: enumerate xs' (start + 1)
  end.

(** A dict with str keys.  A dict display [{k1: v1, k2: v2, ...}] inserts
    the items from left to right, so a repeated key keeps its last value. *)
Abbreviation dict := (gmap string value).

Definition dict_display (items : list (string * value)) : dict :=
  fold_left (fun d kv => <[kv.1 := kv.2]> d) items ∅.

Definition newline : string := String (ascii_of_nat 10) EmptyString.

End Py.

Import Py.

#[global] Instance value_eq_dec : EqDecision value.
Proof. solve_decision. Defined.

(** ** The configuration matrix (lines 9-33) *)

Definition mk_config (name : string) (size : Z) (scenario preparedCache drawCache : string)
  : dict :=
  dict_display
    [ ("name", VStr name); ("size", VInt size); ("scenario", VStr scenario);
      ("preparedCache", VStr preparedCache); ("drawCache", VStr drawCache) ].

Definition configs : list dict :=
  [ (* 100 objects *)
    mk_config "baseline_static_100" 100 "STATIC" "false" "false";
    mk_config "preparedcache_static_100" 100 "STATIC" "true" "false";
    mk_config "drawcache_static_100" 100 "STATIC" "false" "true";
    mk_config "baseline_mutation_100" 100 "FULL_MUTATION" "false" "false";
    mk_config "preparedcache_mutation_100" 100 "FULL_MUTATION" "true" "false";
    mk_config "drawcache_mutation_100" 100 "FULL_MUTATION" "false" "true";
    (* 500 objects *)
    mk_config "baseline_static_500" 500 "STATIC" "false" "false";
    mk_config "preparedcache_static_500" 500 "STATIC" "true" "false";
    mk_config "drawcache_static_500" 500 "STATIC" "false" "true";
    mk_config "baseline_mutation_500" 500 "FULL_MUTATION" "false" "false";
    mk_config "preparedcache_mutation_500" 500 "FULL_MUTATION" "true" "false";
    mk_config "drawcache_mutation_500" 500 "FULL_MUTATION" "false" "true";
    (* 1000 objects *)
    mk_config "baseline_static_1000" 1000 "STATIC" "false" "false";
    mk_config "preparedcache_static_1000" 1000 "STATIC" "true" "false";
    mk_config "drawcache_static_1000" 1000 "STATIC" "false" "true";
    mk_config "baseline_mutation_1000" 1000 "FULL_MUTATION" "false" "false";
    mk_config "preparedcache_mutation_1000" 1000 "FULL_MUTATION" "true" "false";
    mk_config "drawcache_mutation_1000" 1000 "FULL_MUTATION" "false" "true" ].

(** ** The outside world and the monad of the script *)

(** What a spawned process does: the exit status it ends with and the text
    it writes to the terminal it inherits.  The script never captures the
    text; it only ever learns the exit status, through [check]. *)
Record child : Type := Child { exit_status : Z; output : string }.

(** An environment in which every program the script asks for can be
    started: it answers the [n]-th process the script spawns (counting from
    0). *)
Definition Env : Type := nat -> child.

(** In general a program may also fail to start, because its executable is
    not found or may not be executed: the world answers the [n]-th request
    for a process with the process, or with nothing. *)
Definition World : Type := nat -> option child.

(** An environment is a world in which every program starts. *)
Definition started (env : Env) : World := fun n => Some (env n).

Coercion started : Env >-> World.

(** The actions of the script, as they appear in time. *)
Inductive Event : Type :=
| Print (line : string)              (* print(line) *)
| Sleep (secs : Z)                   (* time.sleep(secs) *)
| Run (argv : list string).          (* subprocess.run(argv, ...) *)

Inductive exn : Type :=
| KeyError (key : string)
| TypeError
| ValueError
| OSError
| CalledProcessError (returncode : Z) (cmd : list string).

Inductive outcome (A : Type) : Type :=
| Returned (a : A)
| Raised (e : exn).

Arguments Returned {A} a.

Arguments Raised {A} e.

(** A computation reads the world and the number of processes requested so
    far, and yields the events it performed, the new count and either a
    value or the exception that ended it. *)
Definition M (A : Type) : Type := World -> nat -> list Event * nat * outcome A.

#[global] Instance M_ret : MRet M := fun A a _ n => ([], n, Returned a).

#[global] Instance M_bind : MBind M := fun A B f m env n =>
  match m env n with
  | (evs, n', Returned a) =>
      match f a env n' with
      | (evs', n'', r) => (evs ++ evs', n'', r)
      end
  | (evs, n', Raised e) => (evs, n', Raised e)
  end.

Definition raise {A : Type} (e : exn) : M A := fun _ n => ([], n, Raised e).

Definition emit (ev : Event) : M unit := fun _ n => ([ev], n, Returned tt).

Definition print (line : string) : M unit := emit (Print line).

Definition sleep (secs : Z) : M unit := emit (Sleep secs).

(** [d[key]] *)
Definition getitem (d : dict) (key : string) : M value :=
  match d !! key with
  | Some v => mret v
  | None => raise (KeyError key)
  end.

(** Whether a str has an embedded NUL character. *)
Fixpoint has_nul (s : string) : bool :=
  match s with
  | EmptyString => false
  | String a s' => Ascii.eqb a Ascii.zero || has_nul s'
  end.

(** The arguments of a process are converted one after the other, before
    anything is spawned: an int or a bool raises [TypeError], a str with an
    embedded NUL raises [ValueError], and the first argument at fault
    decides. *)
Fixpoint as_argv (args : list value) : exn + list string :=
  match args with
  | [] => inr []
  | VStr s :: args' =>
      if has_nul s then inl ValueError
      else match as_argv args' with
           | inl e => inl e
           | inr argv => inr (s :: argv)
           end
  | _ :: _ => inl TypeError
  end.

(** [subprocess.run(args, check=check)]: convert the arguments, spawn the
    process and wait for it.  A program that cannot be started raises
    [OSError] whatever [check] is; with [check], a non-zero exit status
    raises [CalledProcessError]; nothing else is looked at.  The result is
    the return code of the completed process.  The [Run] event records the
    request, also when the program then fails to start. *)
Definition subprocess_run (args : list value) (check : bool) : M Z :=
  fun world n =>
    match as_argv args with
    | inl e => ([], n, Raised e)
    | inr argv =>
        match world n with
        | None => ([Run argv], S n, Raised OSError)
        | Some process =>
            let rc := exit_status process in
            if check && negb (rc =? 0)
            then ([Run argv], S n, Raised (CalledProcessError rc argv))
            else ([Run argv], S n, Returned rc)
        end
    end.

(** [for x in xs: body(x)] *)
Fixpoint for_each {A : Type} (xs : list A) (body : A -> M unit) : M unit :=
  match xs with
  | [] => mret tt
  | x :: xs' => body x ;; for_each xs' body
  end.

(** Running a whole program from a fresh start, in a world. *)
Definition run_in {A : Type} (p : M A) (world : World) : list Event * outcome A :=
  match p world O with
  | (evs, _, r) => (evs, r)
  end.

(** Running it in an environment, where every program starts. *)
Definition run {A : Type} (p : M A) (env : Env) : list Event * outcome A :=
  run_in p env.

(** ** The script (lines 35-92) *)

(** Lines 46-55. *)
Definition build_cmd (config : dict) : M (list value) :=
  size ← getitem config "size";
  scenario ← getitem config "scenario";
  preparedCache ← getitem config "preparedCache";
  drawCache ← getitem config "drawCache";
  mret [ VStr "adb"; VStr "shell"; VStr "am"; VStr "start"; VStr "-n";
         VStr "io.fabianterhorst.isometric.benchmark/.BenchmarkActivity";
         VStr "--ei"; VStr "sceneSize"; VStr (str size);
         VStr "--es"; VStr "scenario"; scenario;
         VStr "--ez"; VStr "enablePreparedSceneCache"; preparedCache;
         VStr "--ez"; VStr "enableDrawWithCache"; drawCache;
         VStr "--es"; VStr "interaction"; VStr "NONE";
         VStr "--ei"; VStr "runs"; VStr "1" ].

(** The body of the loop over the configurations, lines 42-86. *)
Definition lifecycle (i total_configs : Z) (config : dict) : M unit :=
  name ← getitem config "name";
  print ("[" +:+ str_of_int i +:+ "/" +:+ str_of_int total_configs
           +:+ "] Running: " +:+ str name);;
  size ← getitem config "size";
  scenario ← getitem config "scenario";
  preparedCache ← getitem config "preparedCache";
  drawCache ← getitem config "drawCache";
  print ("  Size: " +:+ str size +:+ " | Scenario: " +:+ str scenario
           +:+ " | PreparedCache: " +:+ str preparedCache
           +:+ " | DrawCache: " +:+ str drawCache);;
  (* Build ADB command *)
  cmd ← build_cmd config;
  (* Stop any running instance first *)
  subprocess_run
    [VStr "adb"; VStr "shell"; VStr "am"; VStr "force-stop";
     VStr "io.fabianterhorst.isometric.benchmark"] false;;
  sleep 3;;
  (* Clear memory - kill the process completely *)
  subprocess_run
    [VStr "adb"; VStr "shell"; VStr "am"; VStr "kill";
     VStr "io.fabianterhorst.isometric.benchmark"] false;;
  sleep 2;;
  (* Run benchmark *)
  subprocess_run cmd true;;
  (* Wait for benchmark to complete *)
  print "  Waiting for completion...";;
  for_each (range 5 31 5) (fun wait_sec =>
    sleep 5;;
    print ("  ... " +:+ str_of_int wait_sec +:+ "s elapsed"));;
  (* Wait extra time for CSV to be written *)
  print "  Waiting for results to be saved...";;
  sleep 10;;
  (* Stop the activity after completion *)
  subprocess_run
    [VStr "adb"; VStr "shell"; VStr "am"; VStr "force-stop";
     VStr "io.fabianterhorst.isometric.benchmark"] false;;
  sleep 2;;
  (* Kill process to free memory *)
  subprocess_run
    [VStr "adb"; VStr "shell"; VStr "am"; VStr "kill";
     VStr "io.fabianterhorst.isometric.benchmark"] false;;
  sleep 1;;
  print ("  [OK] Completed" +:+ newline).

(** The whole script, lines 35-92, over the list of configurations. *)
Definition run_all_benchmarks (configs : list dict) : M unit :=
  print (str_mul "=" 80);;
  print "Running All 18 Benchmark Configurations";;
  print (str_mul "=" 80);;
  print "";;
  let total_configs := Z.of_nat (length configs) in
  for_each (enumerate configs 1) (fun '(i, config) =>
    lifecycle i total_configs config);;
  print (str_mul "=" 80);;
  print "All Benchmarks Complete!";;
  print (str_mul "=" 80);;
  print (newline +:+ "Pulling results...");;
  subprocess_run
    [VStr "adb"; VStr "shell"; VStr "cat";
     VStr "/storage/emulated/0/Android/data/io.fabianterhorst.isometric.benchmark/files/benchmark_results.csv"]
    true;;
  mret tt.

Definition main : M unit := run_all_benchmarks configs.

(** The loop of lines 41-86 on its own, over the configurations [cs]
    numbered from [i], [t] being the total that the progress lines show. *)
Definition benchmark_loop (t i : Z) (cs : list dict) : M unit :=
  for_each (enumerate cs i) (fun '(i, config) => lifecycle i t config).

(** ** Reading a log *)

(** The steps the orchestrator performs against the outside world: the
    commands it issues and the pauses it takes.  Printing is left out. *)
Inductive Step : Type :=
| Cmd (argv : list string)
| Pause (secs : Z).

#[global] Instance Step_eq_dec : EqDecision Step.
Proof. solve_decision. Defined.

Definition step_of (ev : Event) : option Step :=
  match ev with
  | Print _ => None
  | Sleep secs => Some (Pause secs)
  | Run argv => Some (Cmd argv)
  end.

Definition steps (evs : list Event) : list Step := omap step_of evs.

Definition command_of (ev : Event) : option (list string) :=
  match ev with Run argv => Some argv | _ => None end.

Definition commands (evs : list Event) : list (list string) := omap command_of evs.

Definition pause_of (ev : Event) : option Z :=
  match ev with Sleep secs => Some secs | _ => None end.

Definition pauses (evs : list Event) : list Z := omap pause_of evs.

Definition total (zs : list Z) : Z := fold_right Z.add 0 zs.

Definition step_command (s : Step) : option (list string) :=
  match s with Cmd argv => Some argv | Pause _ => None end.

Definition step_commands (ss : list Step) : list (list string) := omap step_command ss.

(** ** The command lines and the nominal run *)

Definition stop_cmd : list string :=
  ["adb"; "shell"; "am"; "force-stop"; "io.fabianterhorst.isometric.benchmark"].

Definition kill_cmd : list string :=
  ["adb"; "shell"; "am"; "kill"; "io.fabianterhorst.isometric.benchmark"].

Definition retrieve_cmd : list string :=
  ["adb"; "shell"; "cat";
   "/storage/emulated/0/Android/data/io.fabianterhorst.isometric.benchmark/files/benchmark_results.csv"].

(** A field of a configuration, once it is known to be there. *)
Definition field (c : dict) (key : string) : value := default (VStr "") (c !! key).

(** The launch command line of a configuration, as [build_cmd] assembles
    it. *)
Definition launch_argv (c : dict) : list string :=
  [ "adb"; "shell"; "am"; "start"; "-n";
    "io.fabianterhorst.isometric.benchmark/.BenchmarkActivity";
    "--ei"; "sceneSize"; str (field c "size");
    "--es"; "scenario"; str (field c "scenario");
    "--ez"; "enablePreparedSceneCache"; str (field c "preparedCache");
    "--ez"; "enableDrawWithCache"; str (field c "drawCache");
    "--es"; "interaction"; "NONE";
    "--ei"; "runs"; "1" ].

(** The keys the loop body reads, in the order in which it first reads them:
    name for the first progress line (line 42), the other four for the
    second (line 43). *)
Definition required_keys : list string :=
  ["name"; "size"; "scenario"; "preparedCache"; "drawCache"].

Definition absent (c : dict) (key : string) : bool :=
  match c !! key with
  | Some _ => false
  | None => true
  end.

(** The first of the required keys that a configuration lacks. *)
Definition first_missing (c : dict) : option string :=
  List.find (absent c) required_keys.

(** The arguments of the launch that come from the configuration, in the
    order of the command line: the size goes through [str], the scenario and
    the two flags go as they are. *)
Definition launch_values (c : dict) : list value :=
  [ VStr (str (field c "size")); field c "scenario";
    field c "preparedCache"; field c "drawCache" ].

(** What is wrong with a value as an argument of a process. *)
Definition arg_fault (v : value) : option exn :=
  match v with
  | VStr s => if has_nul s then Some ValueError else None
  | VInt _ => Some TypeError
  | VBool _ => Some TypeError
  end.

Fixpoint first_fault (vs : list value) : option exn :=
  match vs with
  | [] => None
  | v :: vs' =>
      match arg_fault v with
      | Some e => Some e
      | None => first_fault vs'
      end
  end.

(** The exception with which the loop body fails on the configuration
    itself, if it does: [KeyError] for the first missing key, else the fault
    of the first launch argument that is an int, a bool or a str with an
    embedded NUL. *)
Definition config_error (c : dict) : option exn :=
  match first_missing c with
  | Some key => Some (KeyError key)
  | None => first_fault (launch_values c)
  end.

(** A configuration the loop body can run: the five keys are there, and the
    size as a str, the scenario and the two flags are strs without an
    embedded NUL. *)
Definition runnable (c : dict) : bool :=
  match config_error c with
  | None => true
  | Some _ => false
  end.

Definition all_runnable (cs : list dict) : Prop := Forall (fun c => runnable c = true) cs.

(** The two progress lines that open a lifecycle. *)
Definition announce (i total_configs : Z) (c : dict) : list Event :=
  [ Print ("[" +:+ str_of_int i +:+ "/" +:+ str_of_int total_configs
             +:+ "] Running: " +:+ str (field c "name"));
    Print ("  Size: " +:+ str (field c "size")
             +:+ " | Scenario: " +:+ str (field c "scenario")
             +:+ " | PreparedCache: " +:+ str (field c "preparedCache")
             +:+ " | DrawCache: " +:+ str (field c "drawCache")) ].

(** Everything up to and including the launch. *)
Definition startup (c : dict) : list Event :=
  [ Run stop_cmd; Sleep 3; Run kill_cmd; Sleep 2; Run (launch_argv c) ].

(** Everything after a launch that succeeded. *)
Definition observe_and_teardown : list Event :=
  [ Print "  Waiting for completion...";
    Sleep 5; Print "  ... 5s elapsed";
    Sleep 5; Print "  ... 10s elapsed";
    Sleep 5; Print "  ... 15s elapsed";
    Sleep 5; Print "  ... 20s elapsed";
    Sleep 5; Print "  ... 25s elapsed";
    Sleep 5; Print "  ... 30s elapsed";
    Print "  Waiting for results to be saved...";
    Sleep 10;
    Run stop_cmd; Sleep 2;
    Run kill_cmd; Sleep 1;
    Print ("  [OK] Completed" +:+ newline) ].

Definition completed_lifecycle (i total_configs : Z) (c : dict) : list Event :=
  announce i total_configs c ++ startup c ++ observe_and_teardown.

Definition aborted_lifecycle (i total_configs : Z) (c : dict) : list Event :=
  announce i total_configs c ++ startup c.

(** The eleven steps of one configuration, in the order of the specification:
    stop, pause, kill, pause, launch, wait-loop, pause, stop, pause, kill,
    pause.  The wait-loop is six pauses of five. *)
Definition wait_loop : list Step := replicate 6 (Pause 5).

Definition nominal_steps (c : dict) : list Step :=
  [ Cmd stop_cmd; Pause 3; Cmd kill_cmd; Pause 2; Cmd (launch_argv c) ]
    ++ wait_loop
    ++ [ Pause 10; Cmd stop_cmd; Pause 2; Cmd kill_cmd; Pause 1 ].

(** What is left of them when the launch fails. *)
Definition aborted_steps (c : dict) : list Step :=
  [ Cmd stop_cmd; Pause 3; Cmd kill_cmd; Pause 2; Cmd (launch_argv c) ].

(** The whole nominal run: every configuration in turn, then the
    retrieval. *)
Definition nominal_run (cs : list dict) : list Step :=
  concat (map nominal_steps cs) ++ [Cmd retrieve_cmd].

(** The events of the loop over [cs], numbered from [i], when every launch
    succeeds. *)
Fixpoint loop_events (i total_configs : Z) (cs : list dict) : list Event :=
  match cs with
  | [] => []
  | c :: cs' => completed_lifecycle i total_configs c ++ loop_events (i + 1) total_configs cs'
  end.

Definition preamble : list Event :=
  [ Print (str_mul "=" 80); Print "Running All 18 Benchmark Configurations";
    Print (str_mul "=" 80); Print "" ].

Definition epilogue : list Event :=
  [ Print (str_mul "=" 80); Print "All Benchmarks Complete!";
    Print (str_mul "=" 80); Print (newline +:+ "Pulling results...");
    Run retrieve_cmd ].

(** The commands of the nominal run of the script: 18 times stop, kill,
    launch, stop, kill, then the retrieval.  A constant of the script. *)
Definition nominal_commands : list (list string) := step_commands (nominal_run configs).

(** The position, among the processes spawned by a loop that starts at
    count [n], of the launch of its [k]-th configuration (from 0): each
    lifecycle that completes spawns five processes, the launch being the
    third. *)
Definition launch_slot (n k : nat) : nat := (n + 5 * k + 2)%nat.

(** The configuration whose number, counting from 1, is [i]. *)
Definition configuration (i : nat) : option dict := configs !! (i - 1)%nat.

(** The position of its launch among the processes of the script. *)
Definition launch_ordinal (i : nat) : nat := launch_slot 0 (i - 1).

(** ** Environments *)

(** An environment in which every command succeeds and writes nothing. *)
Definition all_succeed : Env := fun _ => Child 0 "".

(** An environment in which every stop and every kill command fails with
    status 1, and every other command succeeds. *)
Definition cleanup_fails : Env := fun n =>
  match nominal_commands !! n with
  | Some argv =>
      if bool_decide (argv = stop_cmd \/ argv = kill_cmd) then Child 1 "" else Child 0 ""
  | None => Child 0 ""
  end.

(** ** The configuration matrix as data *)

Inductive CacheMode : Type := Baseline | PreparedCache | DrawCache.

#[global] Instance CacheMode_eq_dec : EqDecision CacheMode.
Proof. solve_decision. Defined.

(** The text of a boolean, as the configurations store it and as it goes
    on the command line. *)
Definition bool_text (b : bool) : string := if b then "true" else "false".

Definition text_bool (s : string) : option bool :=
  if String.eqb s "true" then Some true
  else if String.eqb s "false" then Some false
  else None.

(** A cache flag of a configuration, read from its stored text. *)
Definition flag (c : dict) (key : string) : option bool :=
  match c !! key with
  | Some (VStr s) => text_bool s
  | _ => None
  end.

Definition cache_mode (preparedCache drawCache : bool) : option CacheMode :=
  match preparedCache, drawCache with
  | false, false => Some Baseline
  | true, false => Some PreparedCache
  | false, true => Some DrawCache
  | true, true => None
  end.

Abbreviation point := (Z * string * CacheMode)%type.

(** The point of the matrix a configuration stands for. *)
Definition point_of (c : dict) : option point :=
  match c !! "size", c !! "scenario", flag c "preparedCache", flag c "drawCache" with
  | Some (VInt size), Some (VStr scenario), Some pc, Some dc =>
      match cache_mode pc dc with
      | Some mode => Some (size, scenario, mode)
      | None => None
      end
  | _, _, _, _ => None
  end.

(** The product {100,500,1000} x {STATIC,FULL_MUTATION} x {baseline,
    preparedCache, drawCache}, sizes varying slowest. *)
Definition matrix : list point :=
  flat_map (fun size =>
    flat_map (fun scenario =>
      map (fun mode => (size, scenario, mode)) [Baseline; PreparedCache; DrawCache])
      ["STATIC"; "FULL_MUTATION"])
    [100; 500; 1000].

Definition occurrences (p : point) (cs : list dict) : nat :=
  length (filter (fun c => point_of c = Some p) cs).

Definition name_of (c : dict) : option value := c !! "name".

(** The types the data model of the specification declares. *)
Definition declared_types (c : dict) : bool :=
  match c !! "name", c !! "size", c !! "scenario", c !! "preparedCache", c !! "drawCache" with
  | Some (VStr _), Some (VInt size), Some (VStr scenario), Some (VBool _), Some (VBool _) =>
      (0 <? size) && (String.eqb scenario "STATIC" || String.eqb scenario "FULL_MUTATION")
  | _, _, _, _, _ => false
  end.

(** The types the entries have: the two cache flags are the strs "true" and
    "false". *)
Definition stored_types (c : dict) : bool :=
  match c !! "name", c !! "size", c !! "scenario", c !! "preparedCache", c !! "drawCache" with
  | Some (VStr _), Some (VInt size), Some (VStr scenario), Some (VStr pc), Some (VStr dc) =>
      (0 <? size) && (String.eqb scenario "STATIC" || String.eqb scenario "FULL_MUTATION")
      && (String.eqb pc "true" || String.eqb pc "false")
      && (String.eqb dc "true" || String.eqb dc "false")
  | _, _, _, _, _ => false
  end.

(** ** The launch parameters *)

(** A typed parameter of the launch: [--ei] carries an integer, [--es] a
    string, [--ez] a boolean. *)
Inductive extra : Type :=
| ExtraInt (key : string) (v : Z)
| ExtraString (key : string) (v : string)
| ExtraBool (key : string) (v : bool).

Definition encode_extra (e : extra) : list string :=
  match e with
  | ExtraInt key v => ["--ei"; key; str_of_int v]
  | ExtraString key v => ["--es"; key; v]
  | ExtraBool key v => ["--ez"; key; bool_text v]
  end.

Definition encode_extras (es : list extra) : list string := flat_map encode_extra es.

Definition parse_int (s : string) : option Z :=
  option_map Z.of_int (NilZero.int_of_string s).

Definition decode_extra (flag_ key v : string) : option extra :=
  if String.eqb flag_ "--ei" then option_map (ExtraInt key) (parse_int v)
  else if String.eqb flag_ "--es" then Some (ExtraString key v)
  else if String.eqb flag_ "--ez" then option_map (ExtraBool key) (text_bool v)
  else None.

Fixpoint decode_extras (args : list string) : option (list extra) :=
  match args with
  | [] => Some []
  | flag_ :: key :: v :: rest =>
      match decode_extra flag_ key v, decode_extras rest with
      | Some e, Some es => Some (e :: es)
      | _, _ => None
      end
  | _ => None
  end.

(** The parameters of the launch of a configuration, as the specification
    lists them: sceneSize, scenario and the two cache flags from the
    configuration, then the constants interaction = NONE and runs = 1. *)
Definition launch_parameters (c : dict) : option (list extra) :=
  match c !! "size", c !! "scenario", flag c "preparedCache", flag c "drawCache" with
  | Some (VInt size), Some (VStr scenario), Some pc, Some dc =>
      Some [ ExtraInt "sceneSize" size;
             ExtraString "scenario" scenario;
             ExtraBool "enablePreparedSceneCache" pc;
             ExtraBool "enableDrawWithCache" dc;
             ExtraString "interaction" "NONE";
             ExtraInt "runs" 1 ]
  | _, _, _, _ => None
  end.

(** The start of every launch command line: the activity to start. *)
Definition launch_target : list string :=
  [ "adb"; "shell"; "am"; "start"; "-n";
    "io.fabianterhorst.isometric.benchmark/.BenchmarkActivity" ].

(** A configuration whose launch command line encodes its fields: the
    command [build_cmd] assembles is the launch target followed by the six
    typed parameters, written out, which decode to sceneSize, scenario and
    the two cache flags of the configuration, then interaction = NONE and
    runs = 1. *)
Definition encodes_fields (c : dict) : Prop :=
  exists size scenario pc dc argv,
    c !! "size" = Some (VInt size)
    /\ c !! "scenario" = Some (VStr scenario)
    /\ flag c "preparedCache" = Some pc
    /\ flag c "drawCache" = Some dc
    /\ (forall env n, build_cmd c env n = ([], n, Returned (map VStr argv)))
    /\ launch_argv c = argv
    /\ argv = launch_target
              ++ [ "--ei"; "sceneSize"; str_of_int size;
                   "--es"; "scenario"; scenario;
                   "--ez"; "enablePreparedSceneCache"; bool_text pc;
                   "--ez"; "enableDrawWithCache"; bool_text dc;
                   "--es"; "interaction"; "NONE";
                   "--ei"; "runs"; "1" ]
    /\ decode_extras (drop 6 argv)
       = Some [ ExtraInt "sceneSize" size;
                ExtraString "scenario" scenario;
                ExtraBool "enablePreparedSceneCache" pc;
                ExtraBool "enableDrawWithCache" dc;
                ExtraString "interaction" "NONE";
                ExtraInt "runs" 1 ].

(** ** Tactics *)

(** Settles a closed decidable proposition by running its decision
    procedure. *)
Ltac compute_decision :=
  lazymatch goal with
  | |- ?P => apply (bool_decide_unpack P); vm_compute; exact I
  end.

(** Case analysis over the 18 positions of the configuration list. *)
Ltac each_of_18 k tac :=
  do 18 (destruct k as [|k]; [tac|]); [exfalso; cbn in *; (discriminate || lia)].

(** ** Configurations the loop body cannot run *)


(** The outcomes that come from the configuration and not from a command. *)
Definition is_config_error {A : Type} (r : outcome A) : bool :=
  match r with
  | Raised (KeyError _) => true
  | Raised TypeError => true
  | Raised ValueError => true
  | _ => false
  end.

(** A world in which the very first program the script asks for, the stop
    command of the first configuration, cannot be started, and every other
    program runs and exits with status 0. *)
Definition first_stop_cannot_start : World := fun n =>
  match n with
  | O => None
  | S _ => Some (Child 0 "")
  end.

(** ** Pauses of a sequence of steps *)



(** ** The naming scheme of the configurations *)

Definition mode_label (m : CacheMode) : string :=
  match m with
  | Baseline => "baseline"
  | PreparedCache => "preparedcache"
  | DrawCache => "drawcache"
  end.

Definition scenario_label (scenario : string) : string :=
  if String.eqb scenario "STATIC" then "static"
  else if String.eqb scenario "FULL_MUTATION" then "mutation"
  else scenario.

(** The name of the configuration at a point of the matrix: cache mode,
    scenario and size, joined by underscores. *)
Definition scheme_name (p : point) : string :=
  match p with
  | (size, scenario, mode) =>
      mode_label mode +:+ "_" +:+ scenario_label scenario +:+ "_" +:+ str_of_int size
  end.

(** ** A command that cannot be started *)


(** * Lemmas and theorems *)

(** ** The loop body and the loop *)

Lemma lifecycle_spec (i t : Z) (c : dict) (env : Env) (n : nat) :
  runnable c = true ->
  lifecycle i t c env n =
    let rc := exit_status (env (S (S n))) in
    if rc =? 0
    then (completed_lifecycle i t c, (5 + n)%nat, Returned tt)
    else (aborted_lifecycle i t c, (3 + n)%nat,
          Raised (CalledProcessError rc (launch_argv c))).
Proof.
  unfold runnable, config_error, first_missing, required_keys, absent,
    launch_values, lifecycle, build_cmd, getitem, completed_lifecycle,
    aborted_lifecycle, announce, startup, launch_argv, field.
  cbn [find].
  destruct (c !! "name") as [name|]; [|intros H; cbn in H; discriminate H].
  destruct (c !! "size") as [size|]; [|intros H; cbn in H; discriminate H].
  destruct (c !! "scenario") as [scenario|]; [|intros H; cbn in H; discriminate H].
  destruct (c !! "preparedCache") as [pc|]; [|intros H; cbn in H; discriminate H].
  destruct (c !! "drawCache") as [dc|]; [|intros H; cbn in H; discriminate H].
  cbn [negb default from_option id first_fault arg_fault].
  destruct (has_nul (str size)) eqn:E1; [discriminate|].
  destruct scenario as [|scenario|]; cbn [arg_fault]; try discriminate.
  destruct (has_nul scenario) eqn:E2; [discriminate|].
  destruct pc as [|pc|]; cbn [arg_fault]; try discriminate.
  destruct (has_nul pc) eqn:E3; [discriminate|].
  destruct dc as [|dc|]; cbn [arg_fault]; try discriminate.
  destruct (has_nul dc) eqn:E4; [discriminate|].
  intros _.
  unfold mbind, mret, M_bind, M_ret, print, sleep, emit, subprocess_run, started.
  cbn. rewrite E1. cbn. rewrite E2. cbn. rewrite E3. cbn. rewrite E4. cbn.
  destruct (exit_status (env (S (S n))) =? 0); reflexivity.
Qed.

Lemma benchmark_loop_cons (t i : Z) (c : dict) (cs : list dict) (env : Env) (n : nat) :
  runnable c = true ->
  benchmark_loop t i (c :: cs) env n =
    let rc := exit_status (env (launch_slot n 0)) in
    if rc =? 0
    then match benchmark_loop t (i + 1) cs env (5 + n)%nat with
         | (evs, n', r) => (completed_lifecycle i t c ++ evs, n', r)
         end
    else (aborted_lifecycle i t c, (3 + n)%nat,
          Raised (CalledProcessError rc (launch_argv c))).
Proof.
  intros Hc. unfold benchmark_loop, launch_slot. cbn [enumerate for_each].
  unfold mbind at 1. unfold M_bind at 1.
  rewrite (lifecycle_spec _ _ _ _ _ Hc).
  replace (n + 5 * 0 + 2)%nat with (S (S n)) by lia. cbv zeta.
  destruct (exit_status (env (S (S n))) =? 0); reflexivity.
Qed.

Lemma launch_slot_shift (n k : nat) : launch_slot (5 + n) k = launch_slot n (S k).
Proof. unfold launch_slot. lia. Qed.

(** When every launch succeeds the loop runs every lifecycle to its end,
    whatever the stop and kill commands return. *)
Lemma loop_completes (t : Z) (cs : list dict) :
  forall (i : Z) (env : Env) (n : nat),
    all_runnable cs ->
    (forall k, (k < length cs)%nat -> exit_status (env (launch_slot n k)) = 0) ->
    benchmark_loop t i cs env n
    = (loop_events i t cs, (n + 5 * length cs)%nat, Returned tt).
Proof.
  induction cs as [|c cs IH]; intros i env n Hwf Hok.
  - replace (n + 5 * length (@nil dict))%nat with n by (cbn; lia). reflexivity.
  - inversion Hwf as [|? ? Hc Hcs]; subst.
    rewrite benchmark_loop_cons by exact Hc. cbv zeta.
    rewrite (Hok O) by (cbn; lia). cbn [Z.eqb].
    rewrite IH; [ | exact Hcs | ].
    + cbn [loop_events length]. f_equal. f_equal. lia.
    + intros k Hk. rewrite launch_slot_shift. apply Hok. cbn. lia.
Qed.

(** When the launch of the [k]-th configuration is the first to fail, the
    loop ends there with the exception of that launch. *)
Lemma loop_aborts (t : Z) (cs : list dict) :
  forall (k : nat) (c : dict) (i : Z) (env : Env) (n : nat),
    all_runnable cs ->
    cs !! k = Some c ->
    (forall j, (j < k)%nat -> exit_status (env (launch_slot n j)) = 0) ->
    exit_status (env (launch_slot n k)) <> 0 ->
    benchmark_loop t i cs env n
    = (loop_events i t (take k cs) ++ aborted_lifecycle (i + Z.of_nat k) t c,
       (n + 5 * k + 3)%nat,
       Raised (CalledProcessError (exit_status (env (launch_slot n k))) (launch_argv c))).
Proof.
  induction cs as [|c0 cs IH]; intros k c i env n Hwf Hk Hok Hbad.
  - discriminate.
  - inversion Hwf as [|? ? Hc Hcs]; subst.
    rewrite benchmark_loop_cons by exact Hc. cbv zeta.
    destruct k as [|k].
    + cbn in Hk. injection Hk as ->.
      apply Z.eqb_neq in Hbad. rewrite Hbad.
      cbn [take loop_events app Z.of_nat]. rewrite Z.add_0_r.
      f_equal. f_equal. lia.
    + cbn in Hk.
      rewrite (Hok O) by lia. cbn [Z.eqb].
      rewrite (IH k c (i + 1) env (5 + n)%nat Hcs Hk).
      * rewrite launch_slot_shift.
        cbn [take loop_events]. rewrite <- app_assoc.
        replace (i + 1 + Z.of_nat k) with (i + Z.of_nat (S k)) by lia.
        f_equal. f_equal. lia.
      * intros j Hj. rewrite launch_slot_shift. apply Hok. lia.
      * rewrite launch_slot_shift. exact Hbad.
Qed.

(** The loop sees the environment only through the exit statuses of the
    launches. *)
Lemma loop_agrees (t : Z) (cs : list dict) :
  forall (i : Z) (env env' : Env) (n : nat),
    all_runnable cs ->
    (forall k, (k < length cs)%nat ->
               exit_status (env (launch_slot n k)) = exit_status (env' (launch_slot n k))) ->
    benchmark_loop t i cs env n = benchmark_loop t i cs env' n.
Proof.
  induction cs as [|c cs IH]; intros i env env' n Hwf Hagree.
  - reflexivity.
  - inversion Hwf as [|? ? Hc Hcs]; subst.
    rewrite !benchmark_loop_cons by exact Hc. cbv zeta.
    rewrite (Hagree O) by (cbn; lia).
    destruct (exit_status (env' (launch_slot n 0)) =? 0); [|reflexivity].
    rewrite (IH (i + 1) env env' (5 + n)%nat Hcs); [reflexivity|].
    intros k Hk. rewrite !launch_slot_shift. apply Hagree. cbn. lia.
Qed.

(** Whatever the environment, the loop either completes or stops at a
    launch. *)
Lemma loop_cases (t : Z) (cs : list dict) :
  forall (i : Z) (env : Env) (n : nat),
    all_runnable cs ->
    benchmark_loop t i cs env n
      = (loop_events i t cs, (n + 5 * length cs)%nat, Returned tt)
    \/ exists k c rc,
         cs !! k = Some c /\ rc <> 0 /\
         benchmark_loop t i cs env n
         = (loop_events i t (take k cs) ++ aborted_lifecycle (i + Z.of_nat k) t c,
            (n + 5 * k + 3)%nat,
            Raised (CalledProcessError rc (launch_argv c))).
Proof.
  induction cs as [|c cs IH]; intros i env n Hwf.
  - left. replace (n + 5 * length (@nil dict))%nat with n by (cbn; lia). reflexivity.
  - inversion Hwf as [|? ? Hc Hcs]; subst.
    rewrite benchmark_loop_cons by exact Hc. cbv zeta.
    destruct (exit_status (env (launch_slot n 0)) =? 0) eqn:E.
    + destruct (IH (i + 1) env (5 + n)%nat Hcs) as [-> | (k & c' & rc & Hk & Hrc & ->)].
      * left. cbn [loop_events length]. f_equal. f_equal. lia.
      * right. exists (S k), c', rc. split; [exact Hk|]. split; [exact Hrc|].
        cbn [take loop_events]. rewrite <- app_assoc.
        replace (i + 1 + Z.of_nat k) with (i + Z.of_nat (S k)) by lia.
        f_equal. f_equal. lia.
    + right. exists O, c, (exit_status (env (launch_slot n 0))).
      split; [reflexivity|]. split; [apply Z.eqb_neq; exact E|].
      cbn [take loop_events app Z.of_nat]. rewrite Z.add_0_r.
      f_equal. f_equal. lia.
Qed.

(** ** The whole script *)

(** The script is the loop between its banner and its closing lines, the
    last of which retrieves the results; the retrieval is checked. *)
Lemma script_unfold (cs : list dict) (env : Env) :
  run (run_all_benchmarks cs) env =
    match benchmark_loop (Z.of_nat (length cs)) 1 cs env O with
    | (evs, n, Returned _) =>
        (preamble ++ evs ++ epilogue,
         let rc := exit_status (env n) in
         if rc =? 0 then Returned tt else Raised (CalledProcessError rc retrieve_cmd))
    | (evs, _, Raised e) => (preamble ++ evs, Raised e)
    end.
Proof.
  unfold run, run_in, run_all_benchmarks.
  change (for_each (enumerate cs 1)
            (fun '(i, config) => lifecycle i (Z.of_nat (length cs)) config))
    with (benchmark_loop (Z.of_nat (length cs)) 1 cs).
  unfold mbind, mret, M_bind, M_ret, print, emit, subprocess_run. cbn.
  destruct (benchmark_loop (Z.of_nat (length cs)) 1 cs env O) as [[evs n] [[]|e]].
  - unfold started. cbn.
    destruct (exit_status (env n) =? 0); cbn; rewrite ?app_nil_r; reflexivity.
  - cbn. rewrite ?app_nil_r. reflexivity.
Qed.

Lemma steps_app (xs ys : list Event) : steps (xs ++ ys) = steps xs ++ steps ys.
Proof. apply omap_app. Qed.

Lemma steps_aborted_lifecycle (i t : Z) (c : dict) :
  steps (aborted_lifecycle i t c) = aborted_steps c.
Proof. reflexivity. Qed.

Lemma steps_loop_events (t : Z) (cs : list dict) :
  forall i, steps (loop_events i t cs) = concat (map nominal_steps cs).
Proof.
  induction cs as [|c cs IH]; intros i; [reflexivity|].
  cbn [loop_events map concat]. rewrite steps_app, IH. reflexivity.
Qed.

Lemma commands_steps (evs : list Event) : commands evs = step_commands (steps evs).
Proof.
  induction evs as [|[line|secs|argv] evs IH]; cbn; [reflexivity|exact IH| |];
    unfold commands, steps, step_commands in *; cbn; rewrite IH; reflexivity.
Qed.

Lemma nominal_steps_split (c : dict) :
  nominal_steps c
  = aborted_steps c ++ wait_loop ++ [Pause 10; Cmd stop_cmd; Pause 2; Cmd kill_cmd; Pause 1].
Proof. reflexivity. Qed.

(** The steps of a run in which every launch succeeds. *)
Lemma script_completes (cs : list dict) (env : Env) :
  all_runnable cs ->
  (forall k, (k < length cs)%nat -> exit_status (env (launch_slot 0 k)) = 0) ->
  steps (run (run_all_benchmarks cs) env).1 = nominal_run cs /\
  (run (run_all_benchmarks cs) env).2
  = let rc := exit_status (env (5 * length cs)%nat) in
    if rc =? 0 then Returned tt else Raised (CalledProcessError rc retrieve_cmd).
Proof.
  intros Hwf Hok. rewrite script_unfold.
  rewrite (loop_completes _ _ _ _ _ Hwf Hok). cbn [fst snd].
  split; [|reflexivity].
  rewrite !steps_app, steps_loop_events. reflexivity.
Qed.

(** The steps of a run in which the launch of the [k]-th configuration
    (from 0) is the first to fail. *)
Lemma script_aborts (cs : list dict) (env : Env) (k : nat) (c : dict) :
  all_runnable cs ->
  cs !! k = Some c ->
  (forall j, (j < k)%nat -> exit_status (env (launch_slot 0 j)) = 0) ->
  exit_status (env (launch_slot 0 k)) <> 0 ->
  steps (run (run_all_benchmarks cs) env).1
  = concat (map nominal_steps (take k cs)) ++ aborted_steps c /\
  (run (run_all_benchmarks cs) env).2
  = Raised (CalledProcessError (exit_status (env (launch_slot 0 k))) (launch_argv c)).
Proof.
  intros Hwf Hk Hok Hbad. rewrite script_unfold.
  rewrite (loop_aborts _ _ _ _ _ _ _ Hwf Hk Hok Hbad). cbn [fst snd].
  split; [|reflexivity].
  rewrite !steps_app, steps_loop_events. reflexivity.
Qed.

(** Whatever the commands return, what the script does is an initial part
    of the nominal run: nothing is ever issued out of its place. *)
Lemma script_steps_prefix (cs : list dict) (env : Env) :
  all_runnable cs ->
  steps (run (run_all_benchmarks cs) env).1 `prefix_of` nominal_run cs.
Proof.
  intros Hwf. rewrite script_unfold.
  destruct (loop_cases (Z.of_nat (length cs)) cs 1 env O Hwf)
    as [-> | (k & c & rc & Hk & _ & ->)]; cbn [fst].
  - rewrite !steps_app, steps_loop_events. exists []. rewrite app_nil_r. reflexivity.
  - rewrite !steps_app, steps_loop_events, steps_aborted_lifecycle.
    unfold nominal_run. cbn [steps omap preamble step_of app].
    rewrite <- (take_drop_middle cs k c Hk) at 2.
    rewrite map_app, concat_app. cbn [map concat].
    rewrite nominal_steps_split.
    eexists. rewrite <- !app_assoc. reflexivity.
Qed.

Lemma configs_runnable : all_runnable configs.
Proof. unfold all_runnable. repeat constructor. Qed.

(** The launch of configuration [i] is the command at [launch_ordinal i] of
    the nominal run. *)
Lemma launch_ordinal_is_launch :
  Forall (fun i => nominal_commands !! launch_ordinal i
                   = option_map launch_argv (configuration i))
    (seq 1 18).
Proof. compute_decision. Qed.

(** A run depends on the environment only through the exit statuses of the
    commands that are neither stop nor kill. *)
Lemma run_depends_on_checked_commands (env env' : Env) :
  (forall n argv,
      nominal_commands !! n = Some argv ->
      argv <> stop_cmd -> argv <> kill_cmd ->
      exit_status (env n) = exit_status (env' n)) ->
  run main env = run main env'.
Proof.
  intros H. unfold main. rewrite !script_unfold.
  assert (Hloop : benchmark_loop (Z.of_nat (length configs)) 1 configs env O
                  = benchmark_loop (Z.of_nat (length configs)) 1 configs env' O).
  { apply loop_agrees; [apply configs_runnable|].
    intros k Hk. change (length configs) with 18%nat in Hk.
    each_of_18 k ltac:(eapply H; [vm_compute; reflexivity | discriminate | discriminate]). }
  rewrite Hloop.
  destruct (loop_cases (Z.of_nat (length configs)) configs 1 env' O configs_runnable)
    as [-> | (k & c & rc & _ & _ & ->)]; [|reflexivity].
  cbv zeta. change (0 + 5 * length configs)%nat with 90%nat.
  rewrite (H 90%nat retrieve_cmd); [reflexivity| vm_compute; reflexivity
                                   | discriminate | discriminate].
Qed.

(** ** Properties of the configuration matrix *)

(** C6: the configuration list has exactly 18 entries; read as points
    (size, scenario, cache mode) they are, entry by entry and in this order,
    the product {100,500,1000} x {STATIC,FULL_MUTATION} x {baseline,
    preparedCache, drawCache}; the points of the product are pairwise
    distinct and each one occurs exactly once in the list.  The cache mode of
    an entry exists only when at most one of its flags is true, both false
    being the baseline. *)
Theorem configs_cover_matrix :
  length configs = 18%nat
  /\ map point_of configs = map Some matrix
  /\ NoDup matrix
  /\ Forall (fun p => occurrences p configs = 1%nat) matrix
  /\ Forall (fun c => exists p, point_of c = Some p /\ In p matrix) configs.
Proof.
  split; [reflexivity|].
  split; [reflexivity|].
  split; [compute_decision|].
  split; [compute_decision|].
  repeat (apply List.Forall_cons;
          [ eexists; split; [reflexivity|];
            cbn; repeat (first [left; reflexivity | right]) | ]).
  apply List.Forall_nil.
Qed.

(** C7: the names of the 18 configuration entries are pairwise distinct
    (and every entry has a name, a str). *)
Theorem config_names_distinct :
  NoDup (map name_of configs)
  /\ Forall (fun c => exists s, name_of c = Some (VStr s)) configs.
Proof.
  split; [compute_decision|].
  repeat (apply List.Forall_cons; [eexists; reflexivity|]).
  apply List.Forall_nil.
Qed.

(** C8: in every one of the 18 entries the two cache flags are (true,
    false), (false, true) or (false, false): exactly one of them is true or
    both are false, and never both are true. *)
Theorem cache_flags_exclusive :
  Forall (fun c => exists pc dc,
            flag c "preparedCache" = Some pc /\ flag c "drawCache" = Some dc
            /\ In (pc, dc) [(true, false); (false, true); (false, false)]
            /\ pc && dc = false)
    configs.
Proof.
  repeat (apply List.Forall_cons;
          [ eexists _, _; split; [reflexivity|]; split; [reflexivity|];
            split; [cbn; repeat (first [left; reflexivity | right]) | reflexivity] | ]).
  apply List.Forall_nil.
Qed.

(** C9, as stated, fails: the entries do not all have the declared types,
    since the cache flags of the first entry (of every entry, in fact) are
    strs and not booleans. *)
Lemma configs_not_declared_types :
  ~ Forall (fun c => declared_types c = true) configs.
Proof.
  intros H. apply Forall_inv in H. vm_compute in H. discriminate H.
Qed.

(** No entry at all stores a boolean under its cache flags. *)
Lemma cache_flags_are_strs :
  Forall (fun c => exists pc dc,
            c !! "preparedCache" = Some (VStr pc) /\ c !! "drawCache" = Some (VStr dc)
            /\ declared_types c = false)
    configs.
Proof.
  repeat (apply List.Forall_cons;
          [ eexists _, _; split; [reflexivity|]; split; reflexivity | ]).
  apply List.Forall_nil.
Qed.

(** C9, amended: in every entry name is a str, size a positive int,
    scenario one of the strs STATIC and FULL_MUTATION, and preparedCache and
    drawCache are each one of the strs "true" and "false", the text of a
    boolean. *)
Theorem configs_stored_types :
  Forall (fun c => stored_types c = true) configs.
Proof. repeat (apply List.Forall_cons; [reflexivity|]). apply List.Forall_nil. Qed.

(** The strs are what the command line needs: were a flag a Python bool, the
    launch would raise [TypeError] before a process is spawned. *)
Example bool_flag_is_rejected :
  let c := dict_display
             [ ("name", VStr "baseline_static_100"); ("size", VInt 100);
               ("scenario", VStr "STATIC");
               ("preparedCache", VBool false); ("drawCache", VBool false) ] in
  declared_types c = true
  /\ forall env, (run (lifecycle 1 18 c) env).2 = Raised TypeError
                 /\ commands (run (lifecycle 1 18 c) env).1 = [stop_cmd; kill_cmd].
Proof. split; [reflexivity|]. intros env. split; reflexivity. Qed.

(** ** The launch command *)

Lemma parse_int_str_of_int (z : Z) : parse_int (str_of_int z) = Some z.
Proof.
  unfold parse_int, str_of_int.
  rewrite NilZero.isi.
  - cbn. f_equal. apply DecimalZ.of_to.
  - destruct z; cbn; intros [= H]; try discriminate;
      exact (DecimalPos.Unsigned.to_uint_nonnil _ H).
  - destruct z; cbn; intros [= H]; try discriminate;
      exact (DecimalPos.Unsigned.to_uint_nonnil _ H).
Qed.

Lemma text_bool_bool_text (b : bool) : text_bool (bool_text b) = Some b.
Proof. destruct b; reflexivity. Qed.

Lemma bool_text_text_bool (s : string) (b : bool) : text_bool s = Some b -> bool_text b = s.
Proof.
  unfold text_bool.
  destruct (String.eqb_spec s "true") as [->|_]; [intros [= <-]; reflexivity|].
  destruct (String.eqb_spec s "false") as [->|_]; [intros [= <-]; reflexivity|].
  discriminate.
Qed.

Lemma decode_encode_extra (e : extra) (rest : list string) :
  decode_extras (encode_extra e ++ rest)
  = option_map (cons e) (decode_extras rest).
Proof.
  destruct e as [key v | key v | key v]; cbn.
  - rewrite parse_int_str_of_int. cbn. destruct (decode_extras rest); reflexivity.
  - destruct (decode_extras rest); reflexivity.
  - rewrite text_bool_bool_text. cbn. destruct (decode_extras rest); reflexivity.
Qed.

(** Decoding recovers every parameter list from its command-line form: the
    encoding loses nothing. *)
Lemma decode_encode_extras (es : list extra) : decode_extras (encode_extras es) = Some es.
Proof.
  induction es as [|e es IH]; [reflexivity|].
  unfold encode_extras in *. cbn [flat_map].
  rewrite decode_encode_extra, IH. reflexivity.
Qed.

(** What [build_cmd] assembles for a configuration with launch parameters
    [ps] is the launch target followed by the encoding of [ps]. *)
Lemma build_cmd_encodes (c : dict) (ps : list extra) (env : World) (n : nat) :
  launch_parameters c = Some ps ->
  build_cmd c env n = ([], n, Returned (map VStr (launch_target ++ encode_extras ps)))
  /\ launch_argv c = launch_target ++ encode_extras ps.
Proof.
  unfold launch_parameters, build_cmd, getitem, launch_argv, field, flag.
  destruct (c !! "size") as [[size| |]|]; try discriminate.
  destruct (c !! "scenario") as [[|scenario|]|]; try discriminate.
  destruct (c !! "preparedCache") as [[|pc|]|]; try discriminate.
  destruct (text_bool pc) as [bp|] eqn:Hp; try discriminate.
  destruct (c !! "drawCache") as [[|dc|]|]; try discriminate.
  destruct (text_bool dc) as [bd|] eqn:Hd; try discriminate.
  intros [= <-].
  apply bool_text_text_bool in Hp, Hd. subst pc dc.
  split; reflexivity.
Qed.

Lemma launch_encoding_at (c : dict) (size : Z) (scenario : string) (pc dc : bool) :
  c !! "size" = Some (VInt size) ->
  c !! "scenario" = Some (VStr scenario) ->
  flag c "preparedCache" = Some pc ->
  flag c "drawCache" = Some dc ->
  encodes_fields c.
Proof.
  intros Hsize Hscen Hpc Hdc.
  set (ps := [ ExtraInt "sceneSize" size; ExtraString "scenario" scenario;
               ExtraBool "enablePreparedSceneCache" pc;
               ExtraBool "enableDrawWithCache" dc;
               ExtraString "interaction" "NONE"; ExtraInt "runs" 1 ]).
  assert (Hps : launch_parameters c = Some ps).
  { unfold launch_parameters. rewrite Hsize, Hscen, Hpc, Hdc. reflexivity. }
  exists size, scenario, pc, dc, (launch_target ++ encode_extras ps).
  split; [exact Hsize|]. split; [exact Hscen|]. split; [exact Hpc|]. split; [exact Hdc|].
  split; [intros env n; apply (build_cmd_encodes c ps env n Hps)|].
  split; [apply (build_cmd_encodes c ps (fun _ => None) O Hps)|].
  split; [reflexivity|].
  change (drop 6 (launch_target ++ encode_extras ps)) with (encode_extras ps).
  apply decode_encode_extras.
Qed.

(** C4: for every configuration, the launch command line that [build_cmd]
    assembles is the launch target followed by typed parameters that decode
    to exactly: the integer sceneSize = the configuration's size, the string
    scenario = its scenario, the booleans enablePreparedSceneCache = its
    preparedCache and enableDrawWithCache = its drawCache, and the two
    constants interaction = NONE (a string) and runs = 1 (an integer). *)
Theorem launch_encoding : Forall encodes_fields configs.
Proof.
  repeat (apply List.Forall_cons; [eapply launch_encoding_at; reflexivity|]).
  apply List.Forall_nil.
Qed.

(** ** The order of the steps *)

(** C1: whatever the commands return, the commands and pauses of a run are
    an initial part of the nominal run, which is, for each configuration in
    list order, stop, pause 3, kill, pause 2, launch, the wait-loop (six
    pauses of 5), pause 10, stop, pause 2, kill, pause 1, and after the last
    configuration the retrieval: nothing is reordered.  When every launch
    succeeds, so that every configuration completes, the run is the whole
    nominal run; the retrieval command is its last step and occurs nowhere
    among the steps of the configurations, so it is issued exactly once and
    not before the last configuration has completed. *)
Theorem orchestration_order (env : Env) :
  steps (run main env).1 `prefix_of` nominal_run configs
  /\ ((forall i, (1 <= i <= 18)%nat -> exit_status (env (launch_ordinal i)) = 0) ->
      steps (run main env).1
      = concat (map nominal_steps configs) ++ [Cmd retrieve_cmd])
  /\ Forall (fun c => nominal_steps c
                      = [ Cmd stop_cmd; Pause 3; Cmd kill_cmd; Pause 2;
                          Cmd (launch_argv c);
                          Pause 5; Pause 5; Pause 5; Pause 5; Pause 5; Pause 5;
                          Pause 10; Cmd stop_cmd; Pause 2; Cmd kill_cmd; Pause 1 ]
                      /\ Cmd retrieve_cmd ∉ nominal_steps c)
       configs.
Proof.
  split; [apply script_steps_prefix, configs_runnable|].
  split.
  - intros Hok.
    apply (script_completes configs env configs_runnable).
    intros k Hk. change (length configs) with 18%nat in Hk.
    specialize (Hok (S k)). unfold launch_ordinal in Hok.
    replace (S k - 1)%nat with k in Hok by lia. apply Hok. lia.
  - repeat (apply List.Forall_cons;
            [ split; [reflexivity | compute_decision] | ]).
    apply List.Forall_nil.
Qed.

(** C1 at the environment in which every command succeeds. *)
Lemma orchestration_order_witness :
  (forall i, (1 <= i <= 18)%nat -> exit_status (all_succeed (launch_ordinal i)) = 0)
  /\ steps (run main all_succeed).1
     = concat (map nominal_steps configs) ++ [Cmd retrieve_cmd].
Proof.
  split; [intros i Hi; reflexivity|].
  apply (orchestration_order all_succeed). intros i Hi. reflexivity.
Defined.

(** ** Failures *)

(** C2: if the launch of configuration [i] (1 <= i <= 18) fails, the
    launches of the configurations before it having succeeded, the script
    ends at once with the exception of that launch.  What it has done by
    then is the complete lifecycles of configurations 1 .. i-1 and, of
    configuration [i], stop, pause, kill, pause and the launch: the failing
    launch is the last command issued, 5 (i-1) + 3 commands are issued in
    all, the retrieval is not among them, and neither is the launch of any
    of the configurations i+1 .. 18. *)
Theorem launch_failure_halts (env : Env) (i : nat) (c : dict) :
  (1 <= i)%nat ->
  configuration i = Some c ->
  (forall j, (1 <= j < i)%nat -> exit_status (env (launch_ordinal j)) = 0) ->
  exit_status (env (launch_ordinal i)) <> 0 ->
  (run main env).2
  = Raised (CalledProcessError (exit_status (env (launch_ordinal i))) (launch_argv c))
  /\ steps (run main env).1
     = concat (map nominal_steps (take (i - 1) configs)) ++ aborted_steps c
  /\ last (commands (run main env).1) = Some (launch_argv c)
  /\ length (commands (run main env).1) = (5 * (i - 1) + 3)%nat
  /\ (retrieve_cmd ∉ commands (run main env).1)
  /\ Forall (fun c' => launch_argv c' ∉ commands (run main env).1)
       (drop i configs).
Proof.
  intros Hi Hc Hok Hbad. unfold main, configuration, launch_ordinal in *.
  destruct i as [|k]; [lia|]. clear Hi.
  replace (S k - 1)%nat with k in * by lia.
  assert (Hok' : forall j, (j < k)%nat -> exit_status (env (launch_slot 0 j)) = 0).
  { intros j Hj. specialize (Hok (S j)).
    replace (S j - 1)%nat with j in Hok by lia. apply Hok. lia. }
  destruct (script_aborts configs env k c configs_runnable Hc Hok' Hbad)
    as [Hsteps Hres].
  split; [exact Hres|]. split; [exact Hsteps|].
  rewrite commands_steps, Hsteps.
  clear Hok Hok' Hbad Hsteps Hres.
  each_of_18 k ltac:(injection Hc as <-; repeat split; compute_decision).
Qed.

(** C2 at the failure of the launch of configuration 2. *)
Lemma launch_failure_halts_witness :
  steps (run main (fun n => Child (if Nat.eqb n 7 then 1 else 0) "")).1
  = nominal_steps (mk_config "baseline_static_100" 100 "STATIC" "false" "false")
      ++ aborted_steps (mk_config "preparedcache_static_100" 100 "STATIC" "true" "false")
  /\ length (commands (run main (fun n => Child (if Nat.eqb n 7 then 1 else 0) "")).1)
     = 8%nat.
Proof.
  pose proof (launch_failure_halts
                (fun n => Child (if Nat.eqb n 7 then 1 else 0) "") 2
                (mk_config "preparedcache_static_100" 100 "STATIC" "true" "false")) as H.
  destruct H as (_ & Hsteps & _ & Hlen & _).
  - lia.
  - reflexivity.
  - intros j Hj. assert (j = 1%nat) as -> by lia. reflexivity.
  - vm_compute. discriminate.
  - split; [|exact Hlen].
    rewrite Hsteps. cbn [take map concat Nat.sub configs]. rewrite app_nil_r. reflexivity.
Defined.

(** C3, as stated, fails: a stop or kill command that cannot be started is
    a failure that is not discarded, since [check=False] looks at the exit
    status only and the calls are in no [try].  In the world
    [first_stop_cannot_start] every command that is neither a stop nor a kill
    would run and exit with status 0, yet the script ends with [OSError] at
    the first stop command and takes none of the later steps. *)
Lemma stop_that_cannot_start_ends_script :
  (forall n argv,
      nominal_commands !! n = Some argv ->
      argv <> stop_cmd -> argv <> kill_cmd ->
      first_stop_cannot_start n = Some (Child 0 ""))
  /\ nominal_commands !! O = Some stop_cmd
  /\ first_stop_cannot_start O = None
  /\ (run_in main first_stop_cannot_start).2 = Raised OSError
  /\ steps (run_in main first_stop_cannot_start).1 = [Cmd stop_cmd]
  /\ steps (run_in main first_stop_cannot_start).1 <> nominal_run configs.
Proof.
  split.
  { intros n argv Hn Hstop Hkill. destruct n as [|n]; [|reflexivity].
    vm_compute in Hn. injection Hn as <-. contradiction. }
  split; [reflexivity|]. split; [reflexivity|].
  split; [vm_compute; reflexivity|].
  split; [vm_compute; reflexivity|].
  vm_compute. discriminate.
Qed.

(** C3, amended: a non-zero exit status of a stop or kill command is
    discarded.  The exit statuses of the stop and kill commands have no
    effect on the run: two environments that answer alike every command
    that is neither a stop nor a kill command, and that differ at will in
    what the four stop and kill commands of each configuration return, give
    the same run: the same events, hence the same later steps of that
    configuration and of the later ones, and the same result. *)
Theorem best_effort_failures_discarded (env env' : Env) :
  (forall n argv,
      nominal_commands !! n = Some argv ->
      argv <> stop_cmd -> argv <> kill_cmd ->
      exit_status (env n) = exit_status (env' n)) ->
  run main env = run main env'
  /\ Forall (fun c => step_commands (nominal_steps c)
                      = [stop_cmd; kill_cmd; launch_argv c; stop_cmd; kill_cmd]
                      /\ launch_argv c <> stop_cmd /\ launch_argv c <> kill_cmd)
       configs.
Proof.
  intros H. split; [apply run_depends_on_checked_commands, H|].
  repeat (apply List.Forall_cons;
          [split; [reflexivity|]; split; discriminate|]).
  apply List.Forall_nil.
Qed.

(** C3 at the environment in which all 72 stop and kill commands fail: the
    run is the one in which every command succeeds, the whole nominal run. *)
Lemma best_effort_failures_discarded_witness :
  run main cleanup_fails = run main all_succeed
  /\ exit_status (cleanup_fails O) = 1
  /\ steps (run main cleanup_fails).1 = nominal_run configs
  /\ (run main cleanup_fails).2 = Returned tt.
Proof.
  assert (H : run main cleanup_fails = run main all_succeed).
  { apply (best_effort_failures_discarded cleanup_fails all_succeed).
    intros n argv Hn Hstop Hkill. unfold cleanup_fails. rewrite Hn.
    destruct (bool_decide (argv = stop_cmd \/ argv = kill_cmd)) eqn:E; [|reflexivity].
    apply bool_decide_eq_true in E. tauto. }
  split; [exact H|]. split; [reflexivity|].
  rewrite H. split; vm_compute; reflexivity.
Defined.

(** ** Pauses *)

Lemma range_wait_loop : range 5 31 5 = [5; 10; 15; 20; 25; 30].
Proof. reflexivity. Qed.

(** C5: in the lifecycle of every configuration whose launch succeeds, the
    pauses are 3, 2, six times 5, 10, 2 and 1, in this order; their total is
    3+2+30+10+2+1 = 48, the 30 of the observation wait being the six pauses
    of 5 of the loop over [range(5, 31, 5)]. *)
Theorem lifecycle_pauses (i t : Z) (c : dict) (env : Env) (n : nat) :
  In c configs ->
  exit_status (env (launch_slot n 0)) = 0 ->
  pauses (lifecycle i t c env n).1.1 = [3; 2] ++ replicate 6 5 ++ [10; 2; 1]
  /\ total (pauses (lifecycle i t c env n).1.1) = 3 + 2 + 30 + 10 + 2 + 1
  /\ total (pauses (lifecycle i t c env n).1.1) = 48
  /\ total (replicate (length (range 5 31 5)) 5) = 30.
Proof.
  intros Hin Hok.
  assert (Hc : runnable c = true).
  { pose proof configs_runnable as Hall. unfold all_runnable in Hall.
    rewrite List.Forall_forall in Hall. apply Hall, Hin. }
  rewrite (lifecycle_spec i t c env n Hc). cbv zeta.
  unfold launch_slot in Hok. replace (n + 5 * 0 + 2)%nat with (S (S n)) in Hok by lia.
  rewrite Hok. cbn [Z.eqb fst].
  repeat split; reflexivity.
Qed.

(** C5 at the first configuration, every command succeeding. *)
Lemma lifecycle_pauses_witness :
  total (pauses (lifecycle 1 18
                   (mk_config "baseline_static_100" 100 "STATIC" "false" "false")
                   all_succeed O).1.1) = 48.
Proof.
  apply (lifecycle_pauses 1 18
           (mk_config "baseline_static_100" 100 "STATIC" "false" "false")
           all_succeed O).
  - left. reflexivity.
  - reflexivity.
Defined.

(** ** Determinism *)

(** C10: the script takes no input, and when every external command
    succeeds its run is a constant: any two such environments, whatever the
    commands write (the retrieved file included), give the same events and
    the same result, namely those of [run main all_succeed]; the commands
    issued, with their arguments, are the 91 command lines of
    [nominal_commands], which is built from [configs] alone. *)
Theorem command_trace_constant (env1 env2 : Env) :
  (forall n, exit_status (env1 n) = 0) ->
  (forall n, exit_status (env2 n) = 0) ->
  run main env1 = run main env2
  /\ run main env1 = run main all_succeed
  /\ commands (run main env1).1 = nominal_commands
  /\ commands (run main env2).1 = nominal_commands
  /\ length nominal_commands = 91%nat
  /\ (run main env1).2 = Returned tt.
Proof.
  intros H1 H2.
  assert (E1 : run main env1 = run main all_succeed).
  { apply run_depends_on_checked_commands. intros n argv _ _ _. apply H1. }
  assert (E2 : run main env2 = run main all_succeed).
  { apply run_depends_on_checked_commands. intros n argv _ _ _. apply H2. }
  rewrite E1, E2. repeat split; vm_compute; reflexivity.
Qed.

(** C10 at two environments that differ in what every command writes. *)
Lemma command_trace_constant_witness :
  run main all_succeed = run main (fun n => Child 0 "name,size,scenario,avgFrameMs")
  /\ commands (run main (fun n => Child 0 "name,size,scenario,avgFrameMs")).1
     = nominal_commands.
Proof.
  pose proof (command_trace_constant all_succeed
                (fun n => Child 0 "name,size,scenario,avgFrameMs")
                (fun n => eq_refl) (fun n => eq_refl)) as (H & _ & _ & H' & _).
  split; [exact H | exact H'].
Defined.

(** ** Configurations the loop body cannot run *)










(** ** A bad configuration in the sequence *)







(** ** The retrieval *)






(** ** The time spent pausing *)









(** ** The launch commands and the names *)

(** X8: the launch command line determines the parameters of the run: two
    configurations with an int size, a str scenario and cache flags "true"
    or "false" that are launched with the same command line have the same
    size, the same scenario and the same cache flags. *)
Theorem launch_argv_determines_fields
        (c1 c2 : dict) (size1 size2 : Z) (scenario1 scenario2 : string)
        (pc1 pc2 dc1 dc2 : bool) :
  c1 !! "size" = Some (VInt size1) ->
  c1 !! "scenario" = Some (VStr scenario1) ->
  flag c1 "preparedCache" = Some pc1 ->
  flag c1 "drawCache" = Some dc1 ->
  c2 !! "size" = Some (VInt size2) ->
  c2 !! "scenario" = Some (VStr scenario2) ->
  flag c2 "preparedCache" = Some pc2 ->
  flag c2 "drawCache" = Some dc2 ->
  launch_argv c1 = launch_argv c2 ->
  size1 = size2 /\ scenario1 = scenario2 /\ pc1 = pc2 /\ dc1 = dc2.
Proof.
  intros Hs1 Hn1 Hp1 Hd1 Hs2 Hn2 Hp2 Hd2 Heq.
  destruct (launch_encoding_at c1 size1 scenario1 pc1 dc1 Hs1 Hn1 Hp1 Hd1)
    as (s1 & n1 & p1 & d1 & a1 & Es1 & En1 & Ep1 & Ed1 & _ & Ea1 & _ & Dec1).
  destruct (launch_encoding_at c2 size2 scenario2 pc2 dc2 Hs2 Hn2 Hp2 Hd2)
    as (s2 & n2 & p2 & d2 & a2 & Es2 & En2 & Ep2 & Ed2 & _ & Ea2 & _ & Dec2).
  rewrite Hs1 in Es1. rewrite Hn1 in En1. rewrite Hp1 in Ep1. rewrite Hd1 in Ed1.
  rewrite Hs2 in Es2. rewrite Hn2 in En2. rewrite Hp2 in Ep2. rewrite Hd2 in Ed2.
  injection Es1 as <-. injection En1 as <-. injection Ep1 as <-. injection Ed1 as <-.
  injection Es2 as <-. injection En2 as <-. injection Ep2 as <-. injection Ed2 as <-.
  rewrite <- Ea1 in Dec1. rewrite <- Ea2 in Dec2. rewrite Heq, Dec2 in Dec1.
  injection Dec1 as -> -> -> ->. repeat split; reflexivity.
Qed.

(** X8 at the first configuration and a copy of it under another name. *)
Lemma launch_argv_determines_fields_witness :
  launch_argv (mk_config "baseline_static_100" 100 "STATIC" "false" "false")
  = launch_argv (mk_config "renamed" 100 "STATIC" "false" "false")
  /\ (100 = 100 /\ "STATIC" = "STATIC" /\ false = false /\ false = false).
Proof.
  split; [reflexivity|].
  apply (launch_argv_determines_fields
           (mk_config "baseline_static_100" 100 "STATIC" "false" "false")
           (mk_config "renamed" 100 "STATIC" "false" "false")
           100 100 "STATIC" "STATIC" false false false false); reflexivity.
Defined.

(** X9: the launch command lines of the 18 configurations are pairwise
    distinct: no two runs of the script start the benchmark with the same
    parameters. *)
Theorem launch_commands_distinct : NoDup (map launch_argv configs).
Proof. compute_decision. Qed.

(** X10: the name of every configuration follows from its parameters: it
    is the cache mode (baseline, preparedcache, drawcache), the scenario
    (static for STATIC, mutation for FULL_MUTATION) and the size, joined by
    underscores. *)
Theorem names_follow_scheme :
  Forall (fun c => exists p, point_of c = Some p
                             /\ name_of c = Some (VStr (scheme_name p)))
    configs.
Proof.
  repeat (apply List.Forall_cons; [eexists; split; reflexivity|]).
  apply List.Forall_nil.
Qed.

(** ** The outcomes of the script *)

(** X11: whatever the commands return, the script either returns or ends
    with the [CalledProcessError] of a command that exited with a non-zero
    status, this command being the launch of one of the 18 configurations or
    the retrieval.  It never ends with [KeyError] or [TypeError], nor with
    [ValueError]. *)
Theorem main_outcomes (env : Env) :
  ((run main env).2 = Returned tt
   \/ (exists rc c, rc <> 0 /\ c ∈ configs
                    /\ (run main env).2 = Raised (CalledProcessError rc (launch_argv c)))
   \/ (exists rc, rc <> 0
                  /\ (run main env).2 = Raised (CalledProcessError rc retrieve_cmd)))
  /\ is_config_error (run main env).2 = false.
Proof.
  unfold main. rewrite script_unfold.
  destruct (loop_cases (Z.of_nat (length configs)) configs 1 env O configs_runnable)
    as [-> | (k & c & rc & Hk & Hrc & ->)]; cbn [snd]; cbv zeta.
  - destruct (exit_status (env (0 + 5 * length configs)%nat) =? 0) eqn:E.
    + split; [left; reflexivity | reflexivity].
    + split; [|reflexivity]. right. right.
      eexists. split; [apply Z.eqb_neq; exact E | reflexivity].
  - split; [|reflexivity]. right. left. exists rc, c.
    split; [exact Hrc|]. split; [|reflexivity].
    apply list_elem_of_lookup. exists k. exact Hk.
Qed.

(** ** A command that cannot be started *)



